(** * Verification of the Yandex Market synchronisation script (market.py)

    A shallow embedding of [src/market.py]: the stock reconciliation
    [create_stocks], the price builder [create_prices], the cursor pagination
    of [get_offer_ids], the chunking helper [divide] imported from the
    [seller] module, and the orchestration in [main]. *)

From Stdlib Require Import String Ascii List ZArith Bool Lia.
From Stdlib Require Import Sorting.Permutation.
Import ListNotations.

Open Scope string_scope.
Open Scope list_scope.
Open Scope Z_scope.

(* ------------------------------------------------------------------ *)
(** ** Python values read from an inventory record *)

(** The cells of a record of [watch_remnants] as read with [dict.get]:
    a string, an integer, or [None] when the key is missing. *)
Inductive pyval : Type :=
| PyStr (s : string)
| PyInt (z : Z)
| PyNone.

(** Decimal digits of a non-negative integer, most significant first. *)
Fixpoint dec_digits (fuel : nat) (n : Z) (acc : list ascii) : list ascii :=
  match fuel with
  | O => acc
  | S f =>
      let acc' := ascii_of_nat (48 + Z.to_nat (n mod 10)) :: acc in
      if n <? 10 then acc' else dec_digits f (n / 10) acc'
  end.

(** [str(z)] for a Python [int]. *)
Definition z_to_dec (z : Z) : string :=
  let a := Z.abs z in
  let ds := dec_digits (S (Z.to_nat (Z.log2 a))) a [] in
  string_of_list_ascii (if z <? 0 then "-"%char :: ds else ds).

(** [str(v)]. *)
Definition py_str (v : pyval) : string :=
  match v with
  | PyStr s => s
  | PyInt z => z_to_dec z
  | PyNone => "None"
  end.

(** Whitespace skipped by [int()] around a numeral of an ASCII string
    ([Py_ISSPACE]: space, tab, LF, VT, FF, CR).  Strings holding non-ASCII
    characters go through a Unicode conversion first, which is not
    modelled. *)
Definition is_py_space (c : ascii) : bool :=
  let n := nat_of_ascii c in
  ((9 <=? n)%nat && (n <=? 13)%nat) || (n =? 32)%nat.

Definition is_digit (c : ascii) : bool :=
  let n := nat_of_ascii c in (48 <=? n)%nat && (n <=? 57)%nat.

Definition digit_val (c : ascii) : Z := Z.of_nat (nat_of_ascii c) - 48.

Fixpoint drop_spaces (cs : list ascii) : list ascii :=
  match cs with
  | c :: cs' => if is_py_space c then drop_spaces cs' else cs
  | [] => []
  end.

Definition py_strip (cs : list ascii) : list ascii :=
  rev (drop_spaces (rev (drop_spaces cs))).

(** Base-10 digits, a single [_] allowed between two digits; [prev]
    records whether the previous character was a digit. *)
Fixpoint parse_digits (cs : list ascii) (acc : Z) (prev : bool) : option Z :=
  match cs with
  | [] => if prev then Some acc else None
  | c :: cs' =>
      if is_digit c then parse_digits cs' (acc * 10 + digit_val c) true
      else if prev && Ascii.eqb c "_"%char then parse_digits cs' acc false
      else None
  end.

(** [int(s)] for a string [s]; [None] is the [ValueError]. *)
Definition py_int_of_string (s : string) : option Z :=
  match py_strip (list_ascii_of_string s) with
  | "-"%char :: r => option_map Z.opp (parse_digits r 0 false)
  | "+"%char :: r => parse_digits r 0 false
  | cs => parse_digits cs 0 false
  end.

(** [int(v)]; [None] is the raised [ValueError] or [TypeError]. *)
Definition py_int (v : pyval) : option Z :=
  match v with
  | PyStr s => py_int_of_string s
  | PyInt z => Some z
  | PyNone => None
  end.

(* ------------------------------------------------------------------ *)
(** ** Records and updates *)

(** One record of [watch_remnants]: the cells ["Код"], ["Количество"]
    and ["Цена"]. *)
Record watch : Type := mk_watch {
  code : pyval;
  quantity : pyval;
  price_cell : pyval
}.

Record stock_item : Type := mk_item {
  count : Z;
  item_type : string;
  updatedAt : string
}.

(** A stock update: [{"sku", "warehouseId", "items"}]. *)
Record stock : Type := mk_stock {
  sku : string;
  warehouseId : string;
  items : list stock_item
}.

Definition stock_of (sku0 warehouse_id : string) (n : Z) (date : string) : stock :=
  mk_stock sku0 warehouse_id [mk_item n "FIT" date].

(** The count of the first item, as [stock.get("items")[0].get("count")]. *)
Definition first_count (s : stock) : Z :=
  match items s with
  | it :: _ => count it
  | [] => 0
  end.

(* ------------------------------------------------------------------ *)
(** ** create_stocks *)

(** [value in lst] on a list of strings. *)
Definition py_in (x : string) (l : list string) : bool :=
  existsb (String.eqb x) l.

(** [lst.remove(x)]: drops the first occurrence; [None] is the
    [ValueError] raised when [x] is absent. *)
Fixpoint py_remove (x : string) (l : list string) : option (list string) :=
  match l with
  | [] => None
  | y :: l' =>
      if String.eqb x y then Some l'
      else option_map (cons y) (py_remove x l')
  end.

(** Lines 235-241: the descriptor-to-count rule. *)
Definition quantity_count (q : pyval) : option Z :=
  let c := py_str q in
  if String.eqb c ">10" then Some 100
  else if String.eqb c "1" then Some 0
  else py_int q.

(** Lines 233-255: the first loop.  The state is the pair
    ([stocks], [offer_ids]); [offer_ids] is the caller's list, mutated in
    place by [remove]. *)
Fixpoint stocks_loop (watch_remnants : list watch) (warehouse_id date : string)
    (stocks : list stock) (offer_ids : list string)
    : option (list stock * list string) :=
  match watch_remnants with
  | [] => Some (stocks, offer_ids)
  | w :: rest =>
      let c := py_str (code w) in
      if py_in c offer_ids then
        match quantity_count (quantity w) with
        | None => None
        | Some n =>
            match py_remove c offer_ids with
            | None => None
            | Some offer_ids' =>
                stocks_loop rest warehouse_id date
                  (stocks ++ [stock_of c warehouse_id n date]) offer_ids'
            end
        end
      else stocks_loop rest warehouse_id date stocks offer_ids
  end.

(** [create_stocks(watch_remnants, offer_ids, warehouse_id)].  [date] is
    the timestamp read from [datetime.utcnow()] at line 232.  The result is
    the returned list together with the caller's [offer_ids] list as it is
    after the call; [None] is a raised exception. *)
Definition create_stocks (watch_remnants : list watch) (offer_ids : list string)
    (warehouse_id date : string) : option (list stock * list string) :=
  match stocks_loop watch_remnants warehouse_id date [] offer_ids with
  | None => None
  | Some (stocks, offer_ids') =>
      Some (stocks ++ map (fun o => stock_of o warehouse_id 0 date) offer_ids',
            offer_ids')
  end.

(* ------------------------------------------------------------------ *)
(** ** create_prices *)

(** Modelled from the spec: [price_conversion] of the [seller] module, which
    is not part of the sources.  The spec fixes its rule: discard everything
    from the decimal separator onward, then strip the non-digit grouping
    characters.  [None] is the exception raised on a cell that is not a
    string. *)
Fixpoint before_dot (cs : list ascii) : list ascii :=
  match cs with
  | [] => []
  | c :: r => if Ascii.eqb c "."%char then [] else c :: before_dot r
  end.

Definition price_conversion (v : pyval) : option string :=
  match v with
  | PyStr s =>
      Some (string_of_list_ascii (filter is_digit (before_dot (list_ascii_of_string s))))
  | _ => None
  end.

Record price_value : Type := mk_price_value {
  value : Z;
  currencyId : string
}.

(** A price update: [{"id", "price": {"value", "currencyId"}}]. *)
Record price_update : Type := mk_price_update {
  id : string;
  price : price_value
}.

(** Lines 309-325, the loop with its accumulator [prices]. *)
Fixpoint prices_loop (watch_remnants : list watch) (offer_ids : list string)
    (prices : list price_update) : option (list price_update) :=
  match watch_remnants with
  | [] => Some prices
  | w :: rest =>
      let c := py_str (code w) in
      if py_in c offer_ids then
        match price_conversion (price_cell w) with
        | None => None
        | Some s =>
            match py_int_of_string s with
            | None => None
            | Some v =>
                prices_loop rest offer_ids
                  (prices ++ [mk_price_update c (mk_price_value v "RUR")])
            end
        end
      else prices_loop rest offer_ids prices
  end.

(** [create_prices(watch_remnants, offer_ids)]; [None] is a raised
    exception. *)
Definition create_prices (watch_remnants : list watch) (offer_ids : list string)
    : option (list price_update) :=
  prices_loop watch_remnants offer_ids [].

(* ------------------------------------------------------------------ *)
(** ** divide *)

(** [range(i, stop, step)] for a positive [step]; [fuel] bounds the
    number of elements. *)
Fixpoint py_range (fuel : nat) (i stop step : nat) : list nat :=
  match fuel with
  | O => []
  | S f => if (i <? stop)%nat then i :: py_range f (i + step) stop step else []
  end.

(** Modelled from the spec: [divide(lst, n)] of the [seller] module, which
    is not part of the sources.  The spec describes it as the lazy sequence
    of the contiguous slices [lst[i:i + n]] of length at most [n] that
    consume the whole input, the last one possibly shorter: the generator
    [for i in range(0, len(lst), n): yield lst[i:i + n]].  [None] is the
    [ValueError] of [range] with step 0. *)
Definition divide {A : Type} (lst : list A) (n : nat) : option (list (list A)) :=
  if (n =? 0)%nat then None
  else Some (map (fun i => firstn n (skipn i lst))
                 (py_range (length lst) 0 (length lst) n)).

(* ------------------------------------------------------------------ *)
(** ** get_product_list and get_offer_ids *)

Record offer : Type := mk_offer { shopSku : string }.

(** An element of [offerMappingEntries]. *)
Record entry : Type := mk_entry { offer_of : offer }.

(** The ["result"] object of a listing response: [offerMappingEntries] and
    [paging] may be missing ([None]); [paging] holds [nextPageToken],
    itself possibly missing. *)
Record page_result : Type := mk_page_result {
  offerMappingEntries : option (list entry);
  paging : option (option string)
}.

(** An HTTP response: its status and its body, [None] when the body is
    not JSON, [Some None] when the JSON has no ["result"]. *)
Record response : Type := mk_response {
  status : Z;
  body : option (option page_result)
}.

(** The listing endpoint of one campaign with one token, as a function of
    the requested [page_token]. *)
Definition server := string -> response.

Inductive exn : Type :=
| HTTPError
| JSONDecodeError
| AttributeError
| TypeError.

(** The result of running code for a bounded number of loop iterations:
    a returned value, a raised exception, or still running. *)
Inductive outcome (A : Type) : Type :=
| Returned (a : A)
| Raised (e : exn)
| Running.
Arguments Returned {A} a.
Arguments Raised {A} e.
Arguments Running {A}.

(** [response.raise_for_status()] of requests: raises for 4xx and 5xx. *)
Definition raise_for_status (r : response) : bool :=
  (400 <=? status r) && (status r <? 600).

(** Lines 59-63. *)
Definition get_product_list (srv : server) (page : string)
    : outcome (option page_result) :=
  let r := srv page in
  if raise_for_status r then Raised HTTPError
  else match body r with
       | None => Raised JSONDecodeError
       | Some res => Returned res
       end.

(** [if not page]: a missing or empty [nextPageToken] is falsy. *)
Definition next_token (t : option string) : option string :=
  match t with
  | Some s => if String.eqb s "" then None else Some s
  | None => None
  end.

(** Lines 181-188: [while True] run for at most [fuel] iterations. *)
Fixpoint fetch_loop (fuel : nat) (srv : server) (page : string)
    (product_list : list entry) : outcome (list entry) :=
  match fuel with
  | O => Running
  | S f =>
      match get_product_list srv page with
      | Raised e => Raised e
      | Running => Running
      | Returned None => Raised AttributeError
      | Returned (Some some_prod) =>
          match offerMappingEntries some_prod with
          | None => Raised TypeError
          | Some es =>
              let product_list' := product_list ++ es in
              match paging some_prod with
              | None => Raised AttributeError
              | Some tok =>
                  match next_token tok with
                  | Some page' => fetch_loop f srv page' product_list'
                  | None => Returned product_list'
                  end
              end
          end
      end
  end.

(** [get_offer_ids(campaign_id, market_token)] with the endpoint [srv]. *)
Definition get_offer_ids (fuel : nat) (srv : server) : outcome (list string) :=
  match fetch_loop fuel srv "" [] with
  | Returned product_list =>
      Returned (map (fun product => shopSku (offer_of product)) product_list)
  | Raised e => Raised e
  | Running => Running
  end.

(* ------------------------------------------------------------------ *)
(** ** upload_prices and main *)

(** The requests the orchestration issues. *)
Inductive event : Type :=
| GetOffers (campaign : string)
| PutStocks (campaign : string) (chunk : list stock)
| PostPrices (campaign : string) (chunk : list price_update).

(** A run of a block: the requests issued, and whether it completed
    ([false] when an exception was raised). *)
Definition run := (list event * bool)%type.

Definition then_run (a : run) (k : unit -> run) : run :=
  let (evs, ok) := a in
  if ok then let (evs', ok') := k tt in (evs ++ evs', ok') else (evs, false).

(** [offers c] is the offer id list the catalogue of campaign [c]
    returns to [get_offer_ids]. *)
Definition catalogue := string -> list string.

(** Lines 358-362 (and 367-371): fetch, build and submit the stocks of one
    campaign.  [date] is the timestamp of that [create_stocks] call. *)
Definition sync_stocks (watch_remnants : list watch) (offers : catalogue)
    (campaign_id warehouse_id date : string) : run :=
  let offer_ids := offers campaign_id in
  match create_stocks watch_remnants offer_ids warehouse_id date with
  | None => ([GetOffers campaign_id], false)
  | Some (stocks, _) =>
      match divide stocks 2000 with
      | None => ([GetOffers campaign_id], false)
      | Some chunks => (GetOffers campaign_id :: map (PutStocks campaign_id) chunks, true)
      end
  end.

(** A coroutine object: calling an [async def] function evaluates none of
    its body; the body runs when the coroutine is awaited. *)
Record coroutine : Type := mk_coroutine { co_body : unit -> run }.

Definition py_await (co : coroutine) : run := co_body co tt.

(** An expression statement whose value is a coroutine: the object is built
    and dropped, nothing of the body runs. *)
Definition discard (co : coroutine) : run := ([], true).

(** Lines 328-333: [async def upload_prices]. *)
Definition upload_prices (watch_remnants : list watch) (offers : catalogue)
    (campaign_id : string) : coroutine :=
  mk_coroutine (fun _ =>
    let offer_ids := offers campaign_id in
    match create_prices watch_remnants offer_ids with
    | None => ([GetOffers campaign_id], false)
    | Some prices =>
        match divide prices 500 with
        | None => ([GetOffers campaign_id], false)
        | Some chunks =>
            (GetOffers campaign_id :: map (PostPrices campaign_id) chunks, true)
        end
    end).

(** Lines 355-373: the body of the [try] block of [main]; the [except]
    clauses only print, so the requests issued are those of the block up to
    the first exception. *)
Definition main (watch_remnants : list watch) (offers : catalogue)
    (campaign_fbs_id campaign_dbs_id warehouse_fbs_id warehouse_dbs_id : string)
    (date_fbs date_dbs : string) : list event :=
  fst (then_run (sync_stocks watch_remnants offers campaign_fbs_id warehouse_fbs_id date_fbs)
      (fun _ => then_run (discard (upload_prices watch_remnants offers campaign_fbs_id))
      (fun _ => then_run (sync_stocks watch_remnants offers campaign_dbs_id warehouse_dbs_id date_dbs)
      (fun _ => discard (upload_prices watch_remnants offers campaign_dbs_id))))).

(** The pipeline of each channel as the spec words it: fetch, stocks,
    stock batches, then fetch again, prices and price batches, the price
    stage being carried out. *)
Definition main_as_specified (watch_remnants : list watch) (offers : catalogue)
    (campaign_fbs_id campaign_dbs_id warehouse_fbs_id warehouse_dbs_id : string)
    (date_fbs date_dbs : string) : list event :=
  fst (then_run (sync_stocks watch_remnants offers campaign_fbs_id warehouse_fbs_id date_fbs)
      (fun _ => then_run (py_await (upload_prices watch_remnants offers campaign_fbs_id))
      (fun _ => then_run (sync_stocks watch_remnants offers campaign_dbs_id warehouse_dbs_id date_dbs)
      (fun _ => py_await (upload_prices watch_remnants offers campaign_dbs_id))))).

Definition is_price_post (e : event) : bool :=
  match e with
  | PostPrices _ _ => true
  | _ => false
  end.

(* ------------------------------------------------------------------ *)
(** ** Vocabulary of the properties *)

(** Some record of [watch_remnants] has [str(code) = o]. *)
Definition has_record (watch_remnants : list watch) (o : string) : bool :=
  existsb (fun r => String.eqb (py_str (code r)) o) watch_remnants.

(** The first record of [watch_remnants] with [str(code) = o]. *)
Definition first_record (watch_remnants : list watch) (o : string) : option watch :=
  find (fun r => String.eqb (py_str (code r)) o) watch_remnants.

(** The count a stock update for [o] carries: the descriptor rule on the
    first record with that code, 0 when there is none. *)
Definition expected_count (watch_remnants : list watch) (o : string) : option Z :=
  match first_record watch_remnants o with
  | Some r => quantity_count (quantity r)
  | None => Some 0
  end.

(** A stock update with its timestamp blanked. *)
Definition strip_date (s : stock) : stock :=
  mk_stock (sku s) (warehouseId s)
    (map (fun it => mk_item (count it) (item_type it) "") (items s)).

(** The inventory of the example of the spec. *)
Definition inventory_A1 : list watch :=
  [mk_watch (PyStr "A1") (PyStr ">10") (PyStr "1 990.00 rub.")].

(** Two records with the code ["A"]. *)
Definition inventory_AA : list watch :=
  [mk_watch (PyStr "A") (PyStr "3") (PyStr "100.00");
   mk_watch (PyStr "A") (PyStr "5") (PyStr "200.00")].

(** A listing page holding the given skus and [nextPageToken]. *)
Definition page_of (skus : list string) (tok : option string) : page_result :=
  mk_page_result (Some (map (fun s => mk_entry (mk_offer s)) skus)) (Some tok).


(** The second page answers 500. *)
Definition failing_second_page_server : server :=
  fun page =>
    if String.eqb page "" then mk_response 200 (Some (Some (page_of ["A"] (Some "p2"))))
    else mk_response 500 None.

(** One page answered with status 300 and a JSON body. *)
Definition status_300_server : server :=
  fun _ => mk_response 300 (Some (Some (page_of ["A"] None))).

(** Both campaigns list the offers ["A1"] and ["B2"]. *)
Definition catalogue_A1 : catalogue := fun _ => ["A1"; "B2"].

(* ------------------------------------------------------------------ *)
(** ** upload_stocks *)

(** Line 342: [stock.get("items")[0].get("count") != 0]; [None] is the
    [IndexError] of an update with no item. *)
Definition count_nonzero (s : stock) : option bool :=
  match items s with
  | it :: _ => Some (negb (count it =? 0))
  | [] => None
  end.

(** Lines 341-343: [list(filter(lambda stock: ..., stocks))]. *)
Fixpoint filter_not_empty (stocks : list stock) : option (list stock) :=
  match stocks with
  | [] => Some []
  | s :: rest =>
      match count_nonzero s, filter_not_empty rest with
      | Some b, Some kept => Some (if b then s :: kept else kept)
      | _, _ => None
      end
  end.

(** Lines 336-344: the body of [async def upload_stocks], as it runs when
    awaited: the requests it issues, and [(not_empty, stocks)] when it
    returns ([None] when it raises). *)
Definition upload_stocks (watch_remnants : list watch) (offers : catalogue)
    (campaign_id warehouse_id date : string)
    : list event * option (list stock * list stock) :=
  let offer_ids := offers campaign_id in
  match create_stocks watch_remnants offer_ids warehouse_id date with
  | None => ([GetOffers campaign_id], None)
  | Some (stocks, _) =>
      match divide stocks 2000 with
      | None => ([GetOffers campaign_id], None)
      | Some chunks =>
          match filter_not_empty stocks with
          | None => (GetOffers campaign_id :: map (PutStocks campaign_id) chunks, None)
          | Some not_empty =>
              (GetOffers campaign_id :: map (PutStocks campaign_id) chunks,
               Some (not_empty, stocks))
          end
      end
  end.

(** [int(price_conversion(watch.get("Цена")))] of line 316. *)
Definition price_int (w : watch) : option Z :=
  match price_conversion (price_cell w) with
  | Some s => py_int_of_string s
  | None => None
  end.

(** An inventory whose second record has a descriptor [int()] rejects. *)
Definition inventory_bad : list watch :=
  [mk_watch (PyStr "A1") (PyStr "4") (PyStr "10");
   mk_watch (PyStr "B2") (PyStr "many") (PyStr "20")].

(* ================================================================== *)
(** * Properties *)

Example z_to_dec_ex : z_to_dec 0 = "0" /\ z_to_dec 1990 = "1990" /\ z_to_dec (-7) = "-7".
Proof. vm_compute. auto. Qed.

Example py_int_of_string_ex :
  py_int_of_string " 1_000 " = Some 1000 /\ py_int_of_string "1__0" = None /\
  py_int_of_string "-7" = Some (-7) /\ py_int_of_string ">10" = None.
Proof. vm_compute. auto. Qed.

(** The example of the spec: one record A1 with ">10", remote ids A1, B2. *)
Example spec_example :
  create_stocks [mk_watch (PyStr "A1") (PyStr ">10") (PyStr "1 990.00 rub.")] ["A1"; "B2"] "w" "d"
    = Some ([stock_of "A1" "w" 100 "d"; stock_of "B2" "w" 0 "d"], ["B2"]) /\
  create_prices [mk_watch (PyStr "A1") (PyStr ">10") (PyStr "1 990.00 rub.")] ["A1"; "B2"]
    = Some [mk_price_update "A1" (mk_price_value 1990 "RUR")].
Proof. vm_compute. auto. Qed.

(** ** Lemmas on the list primitives *)

Lemma py_in_iff (x : string) (l : list string) : py_in x l = true <-> In x l.
Proof.
  unfold py_in. rewrite existsb_exists. split.
  - intros [y [Hy Heq]]. apply String.eqb_eq in Heq. subst. exact Hy.
  - intros H. exists x. split; [exact H | apply String.eqb_refl].
Qed.

Lemma py_remove_in (x : string) (l : list string) :
  In x l -> exists l', py_remove x l = Some l' /\ Permutation (x :: l') l.
Proof.
  induction l as [|y l IH]; simpl; intros H; [contradiction|].
  destruct (String.eqb x y) eqn:E.
  - apply String.eqb_eq in E. subst. eauto.
  - destruct H as [H|H].
    + subst. rewrite String.eqb_refl in E. discriminate.
    + destruct (IH H) as [l' [Hr Hp]]. rewrite Hr. simpl.
      exists (y :: l'). split; [reflexivity|].
      eapply perm_trans; [apply perm_swap|]. constructor. exact Hp.
Qed.

Lemma py_remove_some (x : string) (l l' : list string) :
  py_remove x l = Some l' -> Permutation (x :: l') l.
Proof.
  revert l'. induction l as [|y l IH]; simpl; intros l' H; [discriminate|].
  destruct (String.eqb x y) eqn:E.
  - apply String.eqb_eq in E. subst. injection H as <-. reflexivity.
  - destruct (py_remove x l) as [l''|] eqn:Hr; simpl in H; [|discriminate].
    injection H as <-.
    eapply perm_trans; [apply perm_swap|]. constructor. apply IH. reflexivity.
Qed.

(** With no duplicates, [remove] is the filter of the other ids. *)
Lemma py_remove_nodup (x : string) (l l' : list string) :
  NoDup l -> py_remove x l = Some l' ->
  l' = filter (fun y => negb (String.eqb x y)) l.
Proof.
  revert l'. induction l as [|y l IH]; simpl; intros l' Hnd H; [discriminate|].
  inversion Hnd as [|? ? Hy Hnd']; subst.
  destruct (String.eqb x y) eqn:E.
  - apply String.eqb_eq in E. subst. injection H as <-. simpl.
    symmetry. apply forallb_filter_id. apply forallb_forall. intros z Hz.
    destruct (String.eqb y z) eqn:E'; [|reflexivity].
    apply String.eqb_eq in E'. subst. contradiction.
  - destruct (py_remove x l) as [l''|] eqn:Hr; simpl in H; [|discriminate].
    injection H as <-. simpl. f_equal. apply IH; auto.
Qed.

(** ** The reconciliation loop *)

Lemma stocks_loop_app (I : list watch) (w d : string) (acc acc' : list stock)
    (R R' : list string) :
  stocks_loop I w d acc R = Some (acc', R') ->
  exists new, acc' = acc ++ new /\ Permutation (map sku new ++ R') R.
Proof.
  revert acc R. induction I as [|r I IH]; simpl; intros acc R H.
  - injection H as <- <-. exists []. rewrite app_nil_r. auto.
  - destruct (py_in (py_str (code r)) R) eqn:Hin.
    + destruct (quantity_count (quantity r)) as [n|]; [|discriminate].
      destruct (py_remove (py_str (code r)) R) as [R1|] eqn:Hr; [|discriminate].
      destruct (IH _ _ H) as [new [-> Hp]].
      exists (stock_of (py_str (code r)) w n d :: new). split.
      * rewrite <- app_assoc. reflexivity.
      * simpl. eapply perm_trans; [constructor; exact Hp|].
        apply py_remove_some. exact Hr.
    + apply (IH _ _ H).
Qed.

(** The skus of the result of [create_stocks] are a permutation of the
    offer ids it was given. *)
Lemma create_stocks_perm (I : list watch) (R : list string) (w d : string)
    (l : list stock) (R' : list string) :
  create_stocks I R w d = Some (l, R') -> Permutation (map sku l) R.
Proof.
  unfold create_stocks. intros H.
  destruct (stocks_loop I w d [] R) as [[acc R1]|] eqn:HL; [|discriminate].
  injection H as <- <-.
  destruct (stocks_loop_app _ _ _ _ _ _ _ HL) as [new [-> Hp]].
  simpl. rewrite map_app, map_map. simpl. rewrite map_id. exact Hp.
Qed.

(** The ids of the example are distinct. *)
Lemma nodup_A1_B2 : NoDup ["A1"; "B2"].
Proof.
  constructor; [simpl; intros [H|H]; [discriminate|contradiction]|].
  constructor; [simpl; tauto|constructor].
Qed.

(** C1: for a duplicate-free list of offer ids [R], the list returned by
    [create_stocks I R warehouse_id] has the length of [R], and its skus are
    the ids of [R], each exactly once. *)
Theorem create_stocks_one_update_per_offer (I : list watch) (R : list string)
    (w d : string) (l : list stock) (R' : list string) :
  NoDup R -> create_stocks I R w d = Some (l, R') ->
  length l = length R /\ Permutation (map sku l) R /\ NoDup (map sku l).
Proof.
  intros Hnd H. pose proof (create_stocks_perm _ _ _ _ _ _ H) as Hp.
  split; [|split].
  - rewrite <- (length_map sku l). apply Permutation_length. exact Hp.
  - exact Hp.
  - apply (Permutation_NoDup (Permutation_sym Hp)). exact Hnd.
Qed.

Lemma create_stocks_one_update_per_offer_witness :
  NoDup ["A1"; "B2"] /\
  create_stocks inventory_A1 ["A1"; "B2"] "w" "d"
    = Some ([stock_of "A1" "w" 100 "d"; stock_of "B2" "w" 0 "d"], ["B2"]) /\
  length [stock_of "A1" "w" 100 "d"; stock_of "B2" "w" 0 "d"] = length ["A1"; "B2"].
Proof.
  pose proof nodup_A1_B2 as Hnd.
  assert (Hc : create_stocks inventory_A1 ["A1"; "B2"] "w" "d"
    = Some ([stock_of "A1" "w" 100 "d"; stock_of "B2" "w" 0 "d"], ["B2"]))
    by (vm_compute; reflexivity).
  split; [exact Hnd|]. split; [exact Hc|].
  exact (proj1 (create_stocks_one_update_per_offer _ _ _ _ _ _ Hnd Hc)).
Defined.

(** ** What the loop leaves in [offer_ids] *)

Lemma has_record_app (P Q : list watch) (o : string) :
  has_record (P ++ Q) o = has_record P o || has_record Q o.
Proof. unfold has_record. apply existsb_app. Qed.

Lemma has_record_false_iff (I : list watch) (o : string) :
  has_record I o = false <-> first_record I o = None.
Proof.
  unfold has_record, first_record. induction I as [|r I IH]; simpl; [tauto|].
  destruct (String.eqb (py_str (code r)) o); simpl; [split; discriminate|exact IH].
Qed.

Lemma first_record_app (P Q : list watch) (o : string) :
  first_record (P ++ Q) o =
  match first_record P o with Some r => Some r | None => first_record Q o end.
Proof.
  unfold first_record. induction P as [|r P IH]; simpl; [reflexivity|].
  destruct (String.eqb (py_str (code r)) o); [reflexivity|exact IH].
Qed.

Lemma filter_filter_andb {A : Type} (f g : A -> bool) (l : list A) :
  filter f (filter g l) = filter (fun x => f x && g x) l.
Proof.
  induction l as [|x l IH]; simpl; [reflexivity|].
  destruct (g x); simpl; destruct (f x); simpl; rewrite ?IH; reflexivity.
Qed.

Lemma stocks_loop_left (I : list watch) (w d : string) (acc acc' : list stock)
    (R R' : list string) :
  NoDup R -> stocks_loop I w d acc R = Some (acc', R') ->
  R' = filter (fun o => negb (has_record I o)) R.
Proof.
  revert acc R. induction I as [|r I IH]; simpl; intros acc R Hnd H.
  - injection H as <- <-. symmetry. apply forallb_filter_id.
    apply forallb_forall. intros. reflexivity.
  - set (c := py_str (code r)) in *.
    destruct (py_in c R) eqn:Hin.
    + destruct (quantity_count (quantity r)) as [n|]; [|discriminate].
      destruct (py_remove c R) as [R1|] eqn:Hr; [|discriminate].
      pose proof (py_remove_nodup _ _ _ Hnd Hr) as HR1.
      subst R1. rewrite (IH _ _ (NoDup_filter _ Hnd) H), filter_filter_andb.
      apply filter_ext. intros o. unfold has_record. simpl.
      destruct (String.eqb c o), (existsb _ I); reflexivity.
    + rewrite (IH _ _ Hnd H). apply filter_ext_in. intros o Ho.
      unfold has_record. simpl.
      destruct (String.eqb c o) eqn:E; [|reflexivity].
      apply String.eqb_eq in E. subst o.
      apply py_in_iff in Ho. congruence.
Qed.

(** ** The count carried by each update *)

Lemma stocks_loop_counts (I P : list watch) (w d : string) (acc acc' : list stock)
    (R R' : list string) :
  NoDup R ->
  (forall o, In o R -> has_record P o = false) ->
  (forall u, In u acc -> exists r, first_record P (sku u) = Some r /\
                          quantity_count (quantity r) = Some (first_count u)) ->
  stocks_loop I w d acc R = Some (acc', R') ->
  (forall u, In u acc' -> exists r, first_record (P ++ I) (sku u) = Some r /\
                           quantity_count (quantity r) = Some (first_count u)) /\
  (forall o, In o R' -> has_record (P ++ I) o = false).
Proof.
  revert P acc R. induction I as [|r I IH]; simpl; intros P acc R Hnd HR Hacc H.
  - injection H as <- <-. rewrite app_nil_r. auto.
  - rewrite <- (app_nil_l I), app_comm_cons, app_assoc.
    set (c := py_str (code r)) in *.
    assert (Hacc' : forall u, In u acc -> exists r0,
               first_record (P ++ [r]) (sku u) = Some r0 /\
               quantity_count (quantity r0) = Some (first_count u)).
    { intros u Hu. destruct (Hacc u Hu) as [r0 [Hf Hq]]. exists r0.
      rewrite first_record_app, Hf. auto. }
    destruct (py_in c R) eqn:Hin.
    + destruct (quantity_count (quantity r)) as [n|] eqn:Hq; [|discriminate].
      destruct (py_remove c R) as [R1|] eqn:Hr; [|discriminate].
      pose proof (py_remove_nodup _ _ _ Hnd Hr) as HR1. subst R1.
      apply (IH (P ++ [r]) (acc ++ [stock_of c w n d]) _
               (NoDup_filter (fun y => negb (String.eqb c y)) Hnd)); [| |exact H].
      * intros o Ho. apply filter_In in Ho. destruct Ho as [Ho Hco].
        rewrite has_record_app, (HR o Ho). unfold has_record. simpl. fold c.
        destruct (String.eqb c o); [discriminate|reflexivity].
      * intros u Hu. apply in_app_or in Hu. destruct Hu as [Hu|[<-|[]]].
        -- apply Hacc', Hu.
        -- exists r. simpl. rewrite first_record_app.
           apply py_in_iff in Hin. pose proof (HR c Hin) as Hc.
           apply has_record_false_iff in Hc. rewrite Hc.
           unfold first_record. simpl. fold c. rewrite String.eqb_refl. auto.
    + apply (IH (P ++ [r]) acc R Hnd); [| |exact H].
      * intros o Ho. rewrite has_record_app, (HR o Ho). unfold has_record. simpl. fold c.
        destruct (String.eqb c o) eqn:E; [|reflexivity].
        apply String.eqb_eq in E. subst o. apply py_in_iff in Ho. congruence.
      * exact Hacc'.
Qed.

Lemma create_stocks_counts (I : list watch) (R : list string) (w d : string)
    (l : list stock) (R' : list string) :
  NoDup R -> create_stocks I R w d = Some (l, R') ->
  forall u, In u l -> Some (first_count u) = expected_count I (sku u).
Proof.
  unfold create_stocks. intros Hnd H.
  destruct (stocks_loop I w d [] R) as [[acc R1]|] eqn:HL; [|discriminate].
  injection H as <- <-.
  destruct (stocks_loop_counts I [] w d [] acc R R1 Hnd) as [Hacc HR1];
    [intros; reflexivity | intros u []| exact HL |].
  intros u Hu. apply in_app_or in Hu. destruct Hu as [Hu|Hu].
  - destruct (Hacc u Hu) as [r [Hf Hq]]. unfold expected_count.
    simpl in Hf. rewrite Hf. auto.
  - apply in_map_iff in Hu. destruct Hu as [o [<- Ho]].
    unfold expected_count. simpl.
    pose proof (HR1 o Ho) as Hno. simpl in Hno.
    apply has_record_false_iff in Hno. rewrite Hno. reflexivity.
Qed.

(** C2 (counterexample): the descriptor is the integer [1], neither the
    string [">10"] nor the string ["1"], so the claim asks for its integer
    parse [1]; [create_stocks] compares [str(descriptor)] with ["1"] and
    emits count 0. *)
Lemma create_stocks_int_one_counterexample :
  quantity (mk_watch (PyStr "A") (PyInt 1) (PyStr "100")) = PyInt 1 /\
  py_int (PyInt 1) = Some 1 /\
  create_stocks [mk_watch (PyStr "A") (PyInt 1) (PyStr "100")] ["A"] "w" "d"
    = Some ([stock_of "A" "w" 0 "d"], []).
Proof. vm_compute. auto. Qed.

(** C2 (amended): for a duplicate-free offer id list, every update returned
    by [create_stocks] takes its count from the first record whose code is
    its sku: 100 when [str] of the descriptor is [">10"], 0 when it is
    ["1"], [int(descriptor)] otherwise; and 0 when no record has that code. *)
Theorem create_stocks_count_rule (I : list watch) (R : list string) (w d : string)
    (l : list stock) (R' : list string) :
  NoDup R -> create_stocks I R w d = Some (l, R') ->
  forall u, In u l ->
    match first_record I (sku u) with
    | None => first_count u = 0
    | Some r =>
        if String.eqb (py_str (quantity r)) ">10" then first_count u = 100
        else if String.eqb (py_str (quantity r)) "1" then first_count u = 0
        else py_int (quantity r) = Some (first_count u)
    end.
Proof.
  intros Hnd H u Hu. pose proof (create_stocks_counts _ _ _ _ _ _ Hnd H u Hu) as E.
  unfold expected_count, quantity_count in E.
  destruct (first_record I (sku u)) as [r|].
  - destruct (String.eqb (py_str (quantity r)) ">10"); [congruence|].
    destruct (String.eqb (py_str (quantity r)) "1"); congruence.
  - congruence.
Qed.

Lemma create_stocks_count_rule_witness :
  NoDup ["A1"; "B2"] /\
  create_stocks inventory_A1 ["A1"; "B2"] "w" "d"
    = Some ([stock_of "A1" "w" 100 "d"; stock_of "B2" "w" 0 "d"], ["B2"]) /\
  first_count (stock_of "A1" "w" 100 "d") = 100.
Proof.
  pose proof nodup_A1_B2 as Hnd.
  assert (Hc : create_stocks inventory_A1 ["A1"; "B2"] "w" "d"
    = Some ([stock_of "A1" "w" 100 "d"; stock_of "B2" "w" 0 "d"], ["B2"]))
    by (vm_compute; reflexivity).
  split; [exact Hnd|]. split; [exact Hc|].
  exact (create_stocks_count_rule _ _ _ _ _ _ Hnd Hc (stock_of "A1" "w" 100 "d")
           (or_introl eq_refl)).
Defined.

(** C9 (counterexample): with the id ["A"] listed twice, [remove] drops
    one occurrence only, and the list left to the caller still holds
    ["A"], which has a record. *)
Lemma create_stocks_duplicate_offer_counterexample :
  create_stocks [mk_watch (PyStr "A") (PyStr "7") (PyStr "100")] ["A"; "A"] "w" "d"
    = Some ([stock_of "A" "w" 7 "d"; stock_of "A" "w" 0 "d"], ["A"]) /\
  has_record [mk_watch (PyStr "A") (PyStr "7") (PyStr "100")] "A" = true.
Proof. vm_compute. auto. Qed.

(** C9 (amended): [create_stocks] mutates the caller's [offer_ids]; for a
    duplicate-free list, after the call it holds exactly the original ids,
    in their order, that no record of [watch_remnants] has as code. *)
Theorem create_stocks_consumes_offer_ids (I : list watch) (R : list string)
    (w d : string) (l : list stock) (R' : list string) :
  NoDup R -> create_stocks I R w d = Some (l, R') ->
  R' = filter (fun o => negb (has_record I o)) R.
Proof.
  unfold create_stocks. intros Hnd H.
  destruct (stocks_loop I w d [] R) as [[acc R1]|] eqn:HL; [|discriminate].
  injection H as _ <-. exact (stocks_loop_left _ _ _ _ _ _ _ Hnd HL).
Qed.

Lemma create_stocks_consumes_offer_ids_witness :
  NoDup ["A1"; "B2"] /\
  create_stocks inventory_A1 ["A1"; "B2"] "w" "d"
    = Some ([stock_of "A1" "w" 100 "d"; stock_of "B2" "w" 0 "d"], ["B2"]) /\
  ["B2"] = filter (fun o => negb (has_record inventory_A1 o)) ["A1"; "B2"].
Proof.
  pose proof nodup_A1_B2 as Hnd.
  assert (Hc : create_stocks inventory_A1 ["A1"; "B2"] "w" "d"
    = Some ([stock_of "A1" "w" 100 "d"; stock_of "B2" "w" 0 "d"], ["B2"]))
    by (vm_compute; reflexivity).
  split; [exact Hnd|]. split; [exact Hc|].
  exact (create_stocks_consumes_offer_ids _ _ _ _ _ _ Hnd Hc).
Defined.

(** ** Re-running the reconciliation *)

Lemma stocks_loop_dates (I : list watch) (w d1 d2 : string) :
  forall (acc1 acc2 : list stock) (R : list string),
  map strip_date acc1 = map strip_date acc2 ->
  option_map (fun '(l, R') => (map strip_date l, R')) (stocks_loop I w d1 acc1 R) =
  option_map (fun '(l, R') => (map strip_date l, R')) (stocks_loop I w d2 acc2 R).
Proof.
  induction I as [|r I IH]; simpl; intros acc1 acc2 R Hacc.
  - rewrite Hacc. reflexivity.
  - destruct (py_in (py_str (code r)) R); [|apply IH; exact Hacc].
    destruct (quantity_count (quantity r)); [|reflexivity].
    destruct (py_remove (py_str (code r)) R); [|reflexivity].
    apply IH. rewrite !map_app, Hacc. reflexivity.
Qed.

(** C4 (counterexample): [create_stocks] consumes the list it is given;
    run twice on the same list object, the second run only sees the id
    ["B2"] left by the first and returns one update instead of two. *)
Lemma create_stocks_rerun_counterexample :
  create_stocks inventory_A1 ["A1"; "B2"] "w" "d"
    = Some ([stock_of "A1" "w" 100 "d"; stock_of "B2" "w" 0 "d"], ["B2"]) /\
  create_stocks inventory_A1 ["B2"] "w" "d"
    = Some ([stock_of "B2" "w" 0 "d"], ["B2"]).
Proof. vm_compute. auto. Qed.

(** C4 (amended): run on the same records and on two equal offer id lists
    (a fresh list for each run), [create_stocks] returns the same updates in
    the same order, or fails on both runs; only the [updatedAt] timestamps
    differ, and the caller's lists are left equal. *)
Theorem create_stocks_rerun_same_up_to_date (I : list watch) (R : list string)
    (w d1 d2 : string) :
  option_map (fun '(l, R') => (map strip_date l, R')) (create_stocks I R w d1) =
  option_map (fun '(l, R') => (map strip_date l, R')) (create_stocks I R w d2).
Proof.
  unfold create_stocks.
  pose proof (stocks_loop_dates I w d1 d2 [] [] R eq_refl) as H.
  destruct (stocks_loop I w d1 [] R) as [[l1 R1]|];
    destruct (stocks_loop I w d2 [] R) as [[l2 R2]|]; simpl in *;
    try discriminate; [|reflexivity].
  injection H as Hl <-. rewrite !map_app, Hl, !map_map. reflexivity.
Qed.

(** ** The price builder *)

Lemma prices_loop_ids (I : list watch) (R : list string) :
  forall (acc ps : list price_update),
  prices_loop I R acc = Some ps ->
  map id ps = map id acc ++ filter (fun c => py_in c R) (map (fun r => py_str (code r)) I).
Proof.
  induction I as [|r I IH]; simpl; intros acc ps H.
  - injection H as <-. rewrite app_nil_r. reflexivity.
  - destruct (py_in (py_str (code r)) R).
    + destruct (price_conversion (price_cell r)) as [s|]; [|discriminate].
      destruct (py_int_of_string s) as [v|]; [|discriminate].
      rewrite (IH _ _ H), map_app, <- app_assoc. reflexivity.
    + exact (IH _ _ H).
Qed.

(** Offer ids no record has as code do not change the price updates. *)
Lemma prices_loop_unmatched (I : list watch) (R extra : list string) :
  (forall o, In o extra -> has_record I o = false) ->
  forall acc, prices_loop I (R ++ extra) acc = prices_loop I R acc.
Proof.
  induction I as [|r I IH]; simpl; intros Hx acc; [reflexivity|].
  assert (Hx' : forall o, In o extra -> has_record I o = false).
  { intros o Ho. specialize (Hx o Ho). unfold has_record in *. simpl in Hx.
    apply orb_false_iff in Hx. apply Hx. }
  assert (Hr : py_in (py_str (code r)) (R ++ extra) = py_in (py_str (code r)) R).
  { unfold py_in. rewrite existsb_app.
    destruct (existsb (String.eqb (py_str (code r))) extra) eqn:E;
      [|apply orb_false_r].
    apply existsb_exists in E. destruct E as [o [Ho Heq]].
    apply String.eqb_eq in Heq. subst o.
    specialize (Hx _ Ho). unfold has_record in Hx. simpl in Hx.
    rewrite String.eqb_refl in Hx. discriminate. }
  rewrite Hr. destruct (py_in (py_str (code r)) R).
  - destruct (price_conversion (price_cell r)); [|reflexivity].
    destruct (py_int_of_string s); [apply IH; exact Hx'|reflexivity].
  - apply IH. exact Hx'.
Qed.

(** C5: every price update returned by [create_prices I R] has an id that
    is in [R] and is the code of a record of [I]; and ids of [R] that no
    record has as code are skipped: adding them to [R] changes nothing, no
    error and no entry. *)
Theorem create_prices_known_offers_only (I : list watch) (R : list string)
    (ps : list price_update) :
  create_prices I R = Some ps ->
  (forall p, In p ps -> In (id p) R /\ exists r, In r I /\ py_str (code r) = id p) /\
  (forall extra, (forall o, In o extra -> has_record I o = false) ->
     create_prices I (R ++ extra) = Some ps).
Proof.
  unfold create_prices. intros H. split.
  - intros p Hp. pose proof (prices_loop_ids I R [] ps H) as Hids.
    assert (Hin : In (id p) (map id ps)) by (apply in_map; exact Hp).
    rewrite Hids in Hin. simpl in Hin.
    apply filter_In in Hin. destruct Hin as [Hin Hr].
    apply in_map_iff in Hin. destruct Hin as [r [Hc HrI]].
    split; [apply py_in_iff; exact Hr|]. exists r. auto.
  - intros extra Hx. rewrite prices_loop_unmatched; [exact H|exact Hx].
Qed.

Lemma create_prices_known_offers_only_witness :
  create_prices inventory_A1 ["A1"; "B2"] = Some [mk_price_update "A1" (mk_price_value 1990 "RUR")] /\
  create_prices inventory_A1 (["A1"; "B2"] ++ ["C3"])
    = Some [mk_price_update "A1" (mk_price_value 1990 "RUR")].
Proof.
  assert (Hc : create_prices inventory_A1 ["A1"; "B2"]
                 = Some [mk_price_update "A1" (mk_price_value 1990 "RUR")])
    by (vm_compute; reflexivity).
  split; [exact Hc|].
  apply (proj2 (create_prices_known_offers_only _ _ _ Hc)).
  intros o [<-|[]]. vm_compute. reflexivity.
Defined.

(** ** Duplicate codes in the inventory *)

Lemma Permutation_filter_length {A : Type} (f : A -> bool) (l l' : list A) :
  Permutation l l' -> length (filter f l) = length (filter f l').
Proof.
  induction 1; simpl.
  - reflexivity.
  - destruct (f x); simpl; auto.
  - destruct (f x), (f y); reflexivity.
  - congruence.
Qed.

Lemma length_filter_map {A B : Type} (f : B -> bool) (g : A -> B) (l : list A) :
  length (filter f (map g l)) = length (filter (fun x => f (g x)) l).
Proof. rewrite filter_map_swap, length_map. reflexivity. Qed.

Lemma nodup_filter_eqb_length (R : list string) (c : string) :
  NoDup R -> In c R -> length (filter (fun s => String.eqb s c) R) = 1%nat.
Proof.
  induction R as [|x R IH]; simpl; intros Hnd Hin; [contradiction|].
  inversion Hnd as [|? ? Hx Hnd']; subst.
  destruct (String.eqb x c) eqn:E.
  - apply String.eqb_eq in E. subst x. simpl. f_equal.
    destruct (filter (fun s => String.eqb s c) R) as [|a t] eqn:F; [reflexivity|].
    exfalso.
    assert (Ha : In a (filter (fun s => String.eqb s c) R)) by (rewrite F; left; reflexivity).
    apply filter_In in Ha. destruct Ha as [Ha Hac].
    apply String.eqb_eq in Hac. subst a. contradiction.
  - destruct Hin as [->|Hin]; [rewrite String.eqb_refl in E; discriminate|].
    apply IH; assumption.
Qed.

(** C10 (counterexample): with the code ["A"] listed twice among the offer
    ids, the second record finds the second ["A"] still in the list and
    [create_stocks] emits two updates for ["A"]. *)
Lemma create_stocks_duplicate_codes_counterexample :
  create_stocks inventory_AA ["A"; "A"] "w" "d"
    = Some ([stock_of "A" "w" 3 "d"; stock_of "A" "w" 5 "d"], []).
Proof. vm_compute. reflexivity. Qed.

(** C10 (amended): when several records share a code [c] that occurs once
    in a duplicate-free offer id list, [create_stocks] emits exactly one
    update for [c], with the count of the first such record, while
    [create_prices] emits one price update per record with code [c]. *)
Theorem duplicate_codes_stocks_once_prices_each (I : list watch) (R : list string)
    (w d : string) (l : list stock) (R' : list string) (ps : list price_update)
    (c : string) :
  NoDup R -> In c R ->
  (2 <= length (filter (fun r => String.eqb (py_str (code r)) c) I))%nat ->
  create_stocks I R w d = Some (l, R') ->
  create_prices I R = Some ps ->
  length (filter (fun u => String.eqb (sku u) c) l) = 1%nat /\
  (exists r, first_record I c = Some r /\
     forall u, In u l -> sku u = c -> quantity_count (quantity r) = Some (first_count u)) /\
  length (filter (fun p => String.eqb (id p) c) ps) =
  length (filter (fun r => String.eqb (py_str (code r)) c) I).
Proof.
  intros Hnd Hc Hdup Hs Hp. split; [|split].
  - rewrite <- (length_filter_map (fun s => String.eqb s c) sku l).
    rewrite (Permutation_filter_length _ _ _ (create_stocks_perm _ _ _ _ _ _ Hs)).
    apply nodup_filter_eqb_length; assumption.
  - destruct (first_record I c) as [r|] eqn:Hf.
    + exists r. split; [reflexivity|]. intros u Hu Hsku.
      pose proof (create_stocks_counts _ _ _ _ _ _ Hnd Hs u Hu) as E.
      unfold expected_count in E. rewrite Hsku, Hf in E. congruence.
    + exfalso. apply has_record_false_iff in Hf. unfold has_record in Hf.
      destruct (filter (fun r => String.eqb (py_str (code r)) c) I) as [|a t] eqn:F;
        [simpl in Hdup; lia|].
      assert (Ha : In a (filter (fun r => String.eqb (py_str (code r)) c) I))
        by (rewrite F; left; reflexivity).
      apply filter_In in Ha. destruct Ha as [Ha Hac].
      assert (Hex : existsb (fun r => String.eqb (py_str (code r)) c) I = true)
        by (apply existsb_exists; eauto).
      congruence.
  - rewrite <- (length_filter_map (fun s => String.eqb s c) id ps).
    unfold create_prices in Hp. rewrite (prices_loop_ids I R [] ps Hp). simpl.
    rewrite filter_filter_andb, length_filter_map.
    f_equal. apply filter_ext. intros r.
    destruct (String.eqb (py_str (code r)) c) eqn:E; [|reflexivity].
    apply String.eqb_eq in E. rewrite E. simpl. apply py_in_iff. exact Hc.
Qed.

Lemma duplicate_codes_stocks_once_prices_each_witness :
  NoDup ["A"] /\ In "A" ["A"] /\
  create_stocks inventory_AA ["A"] "w" "d" = Some ([stock_of "A" "w" 3 "d"], []) /\
  create_prices inventory_AA ["A"]
    = Some [mk_price_update "A" (mk_price_value 100 "RUR");
            mk_price_update "A" (mk_price_value 200 "RUR")] /\
  length (filter (fun p => String.eqb (id p) "A")
    [mk_price_update "A" (mk_price_value 100 "RUR");
     mk_price_update "A" (mk_price_value 200 "RUR")]) = 2%nat.
Proof.
  assert (Hnd : NoDup ["A"]) by (constructor; [simpl; tauto|constructor]).
  assert (Hin : In "A" ["A"]) by (left; reflexivity).
  assert (Hs : create_stocks inventory_AA ["A"] "w" "d" = Some ([stock_of "A" "w" 3 "d"], []))
    by (vm_compute; reflexivity).
  assert (Hp : create_prices inventory_AA ["A"]
    = Some [mk_price_update "A" (mk_price_value 100 "RUR");
            mk_price_update "A" (mk_price_value 200 "RUR")])
    by (vm_compute; reflexivity).
  assert (H2 : (2 <= length (filter (fun r => String.eqb (py_str (code r)) "A") inventory_AA))%nat)
    by (vm_compute; lia).
  split; [exact Hnd|]. split; [exact Hin|]. split; [exact Hs|]. split; [exact Hp|].
  destruct (duplicate_codes_stocks_once_prices_each _ _ _ _ _ _ _ _ Hnd Hin H2 Hs Hp)
    as [_ [_ E]].
  rewrite E. vm_compute. reflexivity.
Defined.

(** ** Batching *)

Section Divide.
Variable A : Type.
Variable lst : list A.
Variable n : nat.
Hypothesis n_pos : (0 < n)%nat.

Let slice (i : nat) : list A := firstn n (skipn i lst).

Lemma py_range_lt (fuel i j : nat) :
  In j (py_range fuel i (length lst) n) -> (j < length lst)%nat.
Proof.
  revert i. induction fuel as [|f IH]; simpl; intros i H; [contradiction|].
  destruct (i <? length lst)%nat eqn:E; [|contradiction].
  destruct H as [<-|H]; [apply Nat.ltb_lt; exact E|exact (IH _ H)].
Qed.

Lemma py_range_concat (fuel i : nat) :
  (length lst - i <= fuel)%nat ->
  concat (map slice (py_range fuel i (length lst) n)) = skipn i lst.
Proof.
  revert i. induction fuel as [|f IH]; simpl; intros i Hf.
  - symmetry. apply skipn_all2. lia.
  - destruct (i <? length lst)%nat eqn:E.
    + apply Nat.ltb_lt in E. simpl. rewrite IH by lia.
      unfold slice. rewrite Nat.add_comm, <- skipn_skipn. apply firstn_skipn.
    + apply Nat.ltb_ge in E. symmetry. apply skipn_all2. exact E.
Qed.

Lemma slice_length (j : nat) :
  (j < length lst)%nat -> (0 < length (slice j) <= n)%nat.
Proof.
  intros Hj. unfold slice. rewrite length_firstn, length_skipn. lia.
Qed.

Lemma py_range_not_last (fuel i k j : nat) :
  nth_error (py_range fuel i (length lst) n) k = Some j ->
  (S k < length (py_range fuel i (length lst) n))%nat ->
  (j + n < length lst)%nat.
Proof.
  revert i k. induction fuel as [|f IH]; simpl; intros i k H Hk; [destruct k; discriminate|].
  destruct (i <? length lst)%nat eqn:E; [|destruct k; discriminate].
  destruct k as [|k]; simpl in H, Hk.
  - injection H as <-. destruct f as [|f']; simpl in Hk; [lia|].
    destruct (i + n <? length lst)%nat eqn:E'; simpl in Hk; [|lia].
    apply Nat.ltb_lt. exact E'.
  - apply (IH _ _ H). lia.
Qed.

End Divide.

(** C6: for a positive maximum [n], [divide lst n] yields chunks whose
    concatenation is [lst]; every chunk is non-empty and has at most [n]
    elements, and every chunk but the last has exactly [n].  With 4500
    elements and [n = 2000] the chunk sizes are 2000, 2000 and 500. *)
Theorem divide_partition {A : Type} (lst : list A) (n : nat) :
  (0 < n)%nat ->
  (exists chunks, divide lst n = Some chunks /\
     concat chunks = lst /\
     (forall c, In c chunks -> (0 < length c <= n)%nat) /\
     (forall k c, nth_error chunks k = Some c -> (S k < length chunks)%nat ->
                  length c = n)) /\
  option_map (map (@length unit)) (divide (repeat tt 4500) 2000)
    = Some [2000%nat; 2000%nat; 500%nat].
Proof.
  intros Hn. split; [|vm_compute; reflexivity].
  unfold divide. destruct (n =? 0)%nat eqn:E; [apply Nat.eqb_eq in E; lia|].
  eexists. split; [reflexivity|]. split; [|split].
  - rewrite (py_range_concat A lst n Hn); [reflexivity|lia].
  - intros c Hc. apply in_map_iff in Hc. destruct Hc as [j [<- Hj]].
    apply (slice_length A lst n Hn). exact (py_range_lt A lst n _ _ _ Hj).
  - intros k c Hk Hlen. rewrite nth_error_map in Hk.
    destruct (nth_error (py_range (length lst) 0 (length lst) n) k) as [j|] eqn:Hj;
      simpl in Hk; [|discriminate].
    injection Hk as <-. rewrite length_map in Hlen.
    pose proof (py_range_not_last A lst n Hn _ _ _ _ Hj Hlen) as Hlt.
    rewrite length_firstn, length_skipn. lia.
Qed.

Lemma divide_partition_witness :
  (0 < 2)%nat /\
  divide [1; 2; 3]%Z 2 = Some [[1; 2]; [3]]%Z /\
  concat [[1; 2]; [3]]%Z = [1; 2; 3]%Z.
Proof.
  split; [lia|]. split; [vm_compute; reflexivity|].
  destruct (divide_partition [1; 2; 3]%Z 2 ltac:(lia)) as [[chunks [Hd [Hc _]]] _].
  vm_compute in Hd. injection Hd as <-. exact Hc.
Defined.

(** ** Pagination *)


(** A run from [page] reaches a request answered with an error status
    (4xx or 5xx), the requests before it succeeding. *)
Inductive run_hits_error (srv : server) : string -> Prop :=
| rhe_here page :
    raise_for_status (srv page) = true ->
    run_hits_error srv page
| rhe_next page p es tok page' :
    get_product_list srv page = Returned (Some p) ->
    offerMappingEntries p = Some es -> paging p = Some tok ->
    next_token tok = Some page' ->
    run_hits_error srv page' ->
    run_hits_error srv page.


Lemma fetch_loop_error (srv : server) (page : string) :
  run_hits_error srv page ->
  (forall fuel acc l, fetch_loop fuel srv page acc <> Returned l) /\
  (exists k, forall fuel acc, (k <= fuel)%nat -> fetch_loop fuel srv page acc = Raised HTTPError).
Proof.
  induction 1 as [page Hs|page p es tok page' Hg He Hp Ht Hr [IH1 [k IH2]]]; split.
  - intros [|f] acc l; simpl; [discriminate|].
    unfold get_product_list. rewrite Hs. discriminate.
  - exists 1%nat. intros [|f] acc Hf; [lia|]. simpl.
    unfold get_product_list. rewrite Hs. reflexivity.
  - intros [|f] acc l; simpl; [discriminate|].
    rewrite Hg, He, Hp, Ht. apply IH1.
  - exists (S k). intros [|f] acc Hf; [lia|]. simpl.
    rewrite Hg, He, Hp, Ht. apply IH2. lia.
Qed.



(** C7 (counterexample): a page answered with status 300 (not 2xx) and a
    JSON body: [raise_for_status] does not raise for it, and
    [get_offer_ids] returns the offer ids. *)
Lemma get_offer_ids_status_300_counterexample :
  status (status_300_server "") = 300 /\
  get_offer_ids 1 status_300_server = Returned ["A"].
Proof. vm_compute. auto. Qed.

(** C7 (amended): when some page request of the run is answered with an
    error status (4xx or 5xx), [get_offer_ids] never returns a list, not
    even a partial one, and it raises [HTTPError] once the loop has run up
    to that request. *)
Theorem get_offer_ids_error_propagates (srv : server) :
  run_hits_error srv "" ->
  (forall fuel l, get_offer_ids fuel srv <> Returned l) /\
  (exists k, forall fuel, (k <= fuel)%nat -> get_offer_ids fuel srv = Raised HTTPError).
Proof.
  intros Hr. destruct (fetch_loop_error srv "" Hr) as [H1 [k H2]].
  unfold get_offer_ids. split.
  - intros fuel l. specialize (H1 fuel [] ).
    destruct (fetch_loop fuel srv "" []) as [pl|e|]; [|discriminate|discriminate].
    exfalso. exact (H1 pl eq_refl).
  - exists k. intros fuel Hf. rewrite (H2 fuel [] Hf). reflexivity.
Qed.

Lemma get_offer_ids_error_propagates_witness :
  run_hits_error failing_second_page_server "" /\
  get_offer_ids 2 failing_second_page_server = Raised HTTPError /\
  get_offer_ids 2 failing_second_page_server <> Returned ["A"].
Proof.
  assert (Hr : run_hits_error failing_second_page_server "").
  { eapply rhe_next; [reflexivity|reflexivity|reflexivity|reflexivity|].
    apply rhe_here. reflexivity. }
  split; [exact Hr|]. split; [vm_compute; reflexivity|].
  exact (proj1 (get_offer_ids_error_propagates _ Hr) 2%nat ["A"]).
Defined.

(** ** The orchestration *)

Lemma sync_stocks_no_prices (I : list watch) (offers : catalogue) (c w d : string)
    (evs : list event) (ok : bool) :
  sync_stocks I offers c w d = (evs, ok) -> existsb is_price_post evs = false.
Proof.
  unfold sync_stocks. intros H.
  destruct (create_stocks I (offers c) w d) as [[stocks R']|];
    [|injection H as <- _; reflexivity].
  destruct (divide stocks 2000) as [chunks|]; [|injection H as <- _; reflexivity].
  injection H as <- _. simpl.
  induction chunks as [|ch chunks IH]; simpl; [reflexivity|exact IH].
Qed.

(** C3 (code bug): [upload_prices] is an [async def] that [main] calls
    without awaiting, so its body never runs: whatever the inventory, the
    catalogues and the identifiers, [main] submits no price batch.  On the
    example inventory the pipeline as specified does submit one. *)
Theorem main_never_submits_prices :
  (forall (I : list watch) (offers : catalogue) (cf cd wf wd df dd : string),
     existsb is_price_post (main I offers cf cd wf wd df dd) = false) /\
  existsb is_price_post
    (main_as_specified inventory_A1 catalogue_A1 "fbs" "dbs" "wf" "wd" "d" "d") = true.
Proof.
  split; [|vm_compute; reflexivity].
  intros I offers cf cd wf wd df dd. unfold main, then_run, discard.
  destruct (sync_stocks I offers cf wf df) as [e1 ok1] eqn:H1.
  pose proof (sync_stocks_no_prices _ _ _ _ _ _ _ H1) as N1.
  destruct ok1; simpl; [|exact N1].
  destruct (sync_stocks I offers cd wd dd) as [e2 ok2] eqn:H2.
  pose proof (sync_stocks_no_prices _ _ _ _ _ _ _ H2) as N2.
  destruct ok2; simpl; rewrite ?app_nil_r, !existsb_app, N1, N2; reflexivity.
Qed.

Example main_trace_example :
  main inventory_A1 catalogue_A1 "fbs" "dbs" "wf" "wd" "d" "d" =
  [GetOffers "fbs"; PutStocks "fbs" [stock_of "A1" "wf" 100 "d"; stock_of "B2" "wf" 0 "d"];
   GetOffers "dbs"; PutStocks "dbs" [stock_of "A1" "wd" 100 "d"; stock_of "B2" "wd" 0 "d"]].
Proof. vm_compute. reflexivity. Qed.

(* ================================================================== *)
(** * Further properties of the code *)

(** ** create_stocks *)

Lemma stocks_loop_shape (I : list watch) (w d : string) :
  forall acc acc' R R',
  stocks_loop I w d acc R = Some (acc', R') ->
  (forall u, In u acc -> warehouseId u = w /\ exists n, items u = [mk_item n "FIT" d]) ->
  forall u, In u acc' -> warehouseId u = w /\ exists n, items u = [mk_item n "FIT" d].
Proof.
  induction I as [|r I IH]; simpl; intros acc acc' R R' H Hacc.
  - injection H as <- <-. exact Hacc.
  - destruct (py_in (py_str (code r)) R); [|exact (IH _ _ _ _ H Hacc)].
    destruct (quantity_count (quantity r)) as [n|]; [|discriminate].
    destruct (py_remove (py_str (code r)) R); [|discriminate].
    apply (IH _ _ _ _ H). intros u Hu. apply in_app_or in Hu.
    destruct Hu as [Hu|[<-|[]]]; [exact (Hacc u Hu)|]. simpl. eauto.
Qed.

(** Every update returned by [create_stocks] carries the given warehouse
    id and a single item of type ["FIT"] stamped with the one timestamp
    taken at the start of the call. *)
Theorem create_stocks_update_shape (I : list watch) (R : list string) (w d : string)
    (l : list stock) (R' : list string) :
  create_stocks I R w d = Some (l, R') ->
  forall u, In u l -> warehouseId u = w /\ exists n, items u = [mk_item n "FIT" d].
Proof.
  unfold create_stocks. intros H.
  destruct (stocks_loop I w d [] R) as [[acc R1]|] eqn:HL; [|discriminate].
  injection H as <- <-. intros u Hu. apply in_app_or in Hu. destruct Hu as [Hu|Hu].
  - exact (stocks_loop_shape _ _ _ _ _ _ _ HL (fun _ H => match H with end) u Hu).
  - apply in_map_iff in Hu. destruct Hu as [o [<- _]]. simpl. eauto.
Qed.

Lemma create_stocks_update_shape_witness :
  create_stocks inventory_A1 ["A1"; "B2"] "w" "d"
    = Some ([stock_of "A1" "w" 100 "d"; stock_of "B2" "w" 0 "d"], ["B2"]) /\
  warehouseId (stock_of "B2" "w" 0 "d") = "w".
Proof.
  assert (Hc : create_stocks inventory_A1 ["A1"; "B2"] "w" "d"
    = Some ([stock_of "A1" "w" 100 "d"; stock_of "B2" "w" 0 "d"], ["B2"]))
    by (vm_compute; reflexivity).
  split; [exact Hc|].
  exact (proj1 (create_stocks_update_shape _ _ _ _ _ _ Hc (stock_of "B2" "w" 0 "d")
                  (or_intror (or_introl eq_refl)))).
Defined.

Lemma stocks_loop_listed (I : list watch) (w d : string) (R0 : list string) :
  forall acc R, incl R R0 ->
  stocks_loop I w d acc R =
  stocks_loop (filter (fun r => py_in (py_str (code r)) R0) I) w d acc R.
Proof.
  induction I as [|r I IH]; simpl; intros acc R Hincl; [reflexivity|].
  destruct (py_in (py_str (code r)) R0) eqn:H0; simpl.
  - destruct (py_in (py_str (code r)) R); [|apply IH; exact Hincl].
    destruct (quantity_count (quantity r)); [|reflexivity].
    destruct (py_remove (py_str (code r)) R) as [R1|] eqn:Hr; [|reflexivity].
    apply IH. intros x Hx. apply Hincl.
    apply (Permutation_in _ (py_remove_some _ _ _ Hr)). right. exact Hx.
  - destruct (py_in (py_str (code r)) R) eqn:H1; [|apply IH; exact Hincl].
    apply py_in_iff in H1. apply Hincl in H1. apply py_in_iff in H1. congruence.
Qed.

(** Records whose code is not among the offer ids play no part in
    [create_stocks]: dropping them changes neither the result nor the
    list left to the caller, and their descriptors are never parsed, so a
    malformed one raises nothing. *)
Theorem create_stocks_ignores_unlisted_records (I : list watch) (R : list string)
    (w d : string) :
  create_stocks I R w d =
  create_stocks (filter (fun r => py_in (py_str (code r)) R) I) R w d.
Proof.
  unfold create_stocks. rewrite <- (stocks_loop_listed I w d R [] R (incl_refl R)).
  reflexivity.
Qed.

Lemma stocks_loop_none (I : list watch) (w d : string) :
  forall acc R, NoDup R ->
  (stocks_loop I w d acc R = None <->
   exists o r, In o R /\ first_record I o = Some r /\ quantity_count (quantity r) = None).
Proof.
  induction I as [|r I IH]; simpl; intros acc R Hnd.
  - split; [discriminate|]. intros [o [r [_ [H _]]]]. discriminate.
  - unfold first_record at 1. simpl. fold (first_record I).
    destruct (py_in (py_str (code r)) R) eqn:Hin.
    + destruct (quantity_count (quantity r)) as [n|] eqn:Hq.
      * pose proof (proj1 (py_in_iff _ _) Hin) as Hin'.
        destruct (py_remove_in _ _ Hin') as [R1 [Hr _]]. rewrite Hr.
        pose proof (py_remove_nodup _ _ _ Hnd Hr) as HR1. subst R1.
        rewrite (IH _ _ (NoDup_filter _ Hnd)). split.
        -- intros [o [r' [Ho [Hf Hq']]]]. apply filter_In in Ho. destruct Ho as [Ho Hne].
           exists o, r'. split; [exact Ho|].
           destruct (String.eqb (py_str (code r)) o); [discriminate|auto].
        -- intros [o [r' [Ho [Hf Hq']]]].
           destruct (String.eqb (py_str (code r)) o) eqn:E.
           ++ injection Hf as <-. congruence.
           ++ exists o, r'. split; [|auto]. apply filter_In. rewrite E. auto.
      * split; [intros _|reflexivity]. exists (py_str (code r)), r.
        rewrite String.eqb_refl. split; [apply py_in_iff; exact Hin|auto].
    + rewrite (IH _ _ Hnd). split.
      * intros [o [r' [Ho [Hf Hq']]]]. exists o, r'. split; [exact Ho|].
        destruct (String.eqb (py_str (code r)) o) eqn:E; [|auto].
        apply String.eqb_eq in E. subst o. apply py_in_iff in Ho. congruence.
      * intros [o [r' [Ho [Hf Hq']]]]. exists o, r'. split; [exact Ho|].
        destruct (String.eqb (py_str (code r)) o) eqn:E; [|auto].
        apply String.eqb_eq in E. subst o. apply py_in_iff in Ho. congruence.
Qed.

(** For a duplicate-free offer id list, [create_stocks] raises exactly
    when some offer id's first record has a descriptor that is neither
    [">10"] nor ["1"] and that [int()] rejects. *)
Theorem create_stocks_raises_iff (I : list watch) (R : list string) (w d : string) :
  NoDup R ->
  (create_stocks I R w d = None <->
   exists o r, In o R /\ first_record I o = Some r /\ quantity_count (quantity r) = None).
Proof.
  intros Hnd. rewrite <- (stocks_loop_none I w d [] R Hnd). unfold create_stocks.
  destruct (stocks_loop I w d [] R) as [[acc R1]|]; split; congruence.
Qed.

Lemma create_stocks_raises_iff_witness :
  NoDup ["A1"; "B2"] /\ create_stocks inventory_bad ["A1"; "B2"] "w" "d" = None /\
  exists o r, In o ["A1"; "B2"] /\ first_record inventory_bad o = Some r /\
              quantity_count (quantity r) = None.
Proof.
  pose proof nodup_A1_B2 as Hnd.
  assert (Hc : create_stocks inventory_bad ["A1"; "B2"] "w" "d" = None)
    by (vm_compute; reflexivity).
  split; [exact Hnd|]. split; [exact Hc|].
  exact (proj1 (create_stocks_raises_iff inventory_bad _ "w" "d" Hnd) Hc).
Defined.

(** ** create_prices *)

Lemma prices_loop_none (I : list watch) (R : list string) :
  forall acc, prices_loop I R acc = None <->
  exists r, In r I /\ py_in (py_str (code r)) R = true /\ price_int r = None.
Proof.
  induction I as [|r I IH]; simpl; intros acc.
  - split; [discriminate|]. intros [r [[] _]].
  - destruct (py_in (py_str (code r)) R) eqn:Hin.
    + assert (Hpi : price_int r = match price_conversion (price_cell r) with
                                  | Some s => py_int_of_string s | None => None end)
        by reflexivity.
      destruct (price_conversion (price_cell r)) as [s|];
        [destruct (py_int_of_string s) as [v|]|].
      * rewrite IH. split.
        -- intros [r' [Hr' Hq]]. eauto.
        -- intros [r' [[<-|Hr'] [Hi Hq]]]; [congruence|eauto].
      * split; [intros _; exists r; auto|reflexivity].
      * split; [intros _; exists r; auto|reflexivity].
    + rewrite IH. split.
      * intros [r' [Hr' Hq]]. eauto.
      * intros [r' [[<-|Hr'] [Hi Hq]]]; [congruence|eauto].
Qed.

(** [create_prices] raises exactly when some record whose code is among
    the offer ids has a price cell that [int(price_conversion(...))]
    rejects; the price cells of the other records are never read. *)
Theorem create_prices_raises_iff (I : list watch) (R : list string) :
  create_prices I R = None <->
  exists r, In r I /\ py_in (py_str (code r)) R = true /\ price_int r = None.
Proof. apply prices_loop_none. Qed.

Lemma prices_loop_members (I : list watch) (R1 R2 : list string) :
  (forall x, In x R1 <-> In x R2) ->
  forall acc, prices_loop I R1 acc = prices_loop I R2 acc.
Proof.
  intros Hm. induction I as [|r I IH]; simpl; intros acc; [reflexivity|].
  assert (E : py_in (py_str (code r)) R1 = py_in (py_str (code r)) R2).
  { destruct (py_in (py_str (code r)) R2) eqn:H2.
    - apply py_in_iff, Hm, py_in_iff. exact H2.
    - destruct (py_in (py_str (code r)) R1) eqn:H1; [|reflexivity].
      apply py_in_iff, Hm, py_in_iff in H1. congruence. }
  rewrite E. destruct (py_in (py_str (code r)) R2); [|apply IH].
  destruct (price_conversion (price_cell r)); [|reflexivity].
  destruct (py_int_of_string s); [apply IH|reflexivity].
Qed.

Lemma prices_loop_listed (I : list watch) (R : list string) :
  forall acc, prices_loop I R acc =
  prices_loop (filter (fun r => py_in (py_str (code r)) R) I) R acc.
Proof.
  induction I as [|r I IH]; simpl; intros acc; [reflexivity|].
  destruct (py_in (py_str (code r)) R) eqn:Hin; simpl; rewrite ?Hin; [|apply IH].
  destruct (price_conversion (price_cell r)); [|reflexivity].
  destruct (py_int_of_string s); [apply IH|reflexivity].
Qed.

(** [create_prices] reads the offer id list only through membership: two
    lists with the same members, in any order and with any repetitions,
    give the same result; and records whose code is not listed can be
    dropped without changing it. *)
Theorem create_prices_membership_only (I : list watch) (R1 R2 : list string) :
  (forall x, In x R1 <-> In x R2) ->
  create_prices I R1 = create_prices I R2 /\
  create_prices I R1 = create_prices (filter (fun r => py_in (py_str (code r)) R1) I) R1.
Proof.
  intros Hm. unfold create_prices. split.
  - apply prices_loop_members. exact Hm.
  - apply prices_loop_listed.
Qed.

Lemma create_prices_membership_only_witness :
  (forall x, In x ["A1"; "B2"; "A1"] <-> In x ["B2"; "A1"]) /\
  create_prices inventory_A1 ["A1"; "B2"; "A1"] = create_prices inventory_A1 ["B2"; "A1"].
Proof.
  assert (Hm : forall x, In x ["A1"; "B2"; "A1"] <-> In x ["B2"; "A1"])
    by (intros x; simpl; tauto).
  split; [exact Hm|]. exact (proj1 (create_prices_membership_only _ _ _ Hm)).
Defined.

Lemma prices_loop_entries (I : list watch) (R : list string) :
  forall acc ps, prices_loop I R acc = Some ps ->
  map (fun p => (id p, Some (value (price p)), currencyId (price p))) ps =
  map (fun p => (id p, Some (value (price p)), currencyId (price p))) acc ++
  map (fun r => (py_str (code r), price_int r, "RUR"))
      (filter (fun r => py_in (py_str (code r)) R) I).
Proof.
  induction I as [|r I IH]; simpl; intros acc ps H.
  - injection H as <-. rewrite app_nil_r. reflexivity.
  - destruct (py_in (py_str (code r)) R); [|exact (IH _ _ H)].
    destruct (price_conversion (price_cell r)) as [s|] eqn:Hc; [|discriminate].
    destruct (py_int_of_string s) as [v|] eqn:Hv; [|discriminate].
    rewrite (IH _ _ H), map_app, <- app_assoc. simpl.
    unfold price_int. rewrite Hc, Hv. reflexivity.
Qed.

(** The price updates correspond one to one, in order, to the records
    whose code is listed: the k-th update carries the code of the k-th
    listed record, the value [int(price_conversion(price))] of that same
    record, and the currency ["RUR"]. *)
Theorem create_prices_entries (I : list watch) (R : list string) (ps : list price_update) :
  create_prices I R = Some ps ->
  map (fun p => (id p, Some (value (price p)), currencyId (price p))) ps =
  map (fun r => (py_str (code r), price_int r, "RUR"))
      (filter (fun r => py_in (py_str (code r)) R) I).
Proof.
  unfold create_prices. intros H. exact (prices_loop_entries I R [] ps H).
Qed.

Lemma create_prices_entries_witness :
  create_prices inventory_AA ["A"]
    = Some [mk_price_update "A" (mk_price_value 100 "RUR");
            mk_price_update "A" (mk_price_value 200 "RUR")] /\
  map (fun p => (id p, Some (value (price p)), currencyId (price p)))
      [mk_price_update "A" (mk_price_value 100 "RUR");
       mk_price_update "A" (mk_price_value 200 "RUR")]
    = map (fun r => (py_str (code r), price_int r, "RUR"))
          (filter (fun r => py_in (py_str (code r)) ["A"]) inventory_AA).
Proof.
  assert (Hp : create_prices inventory_AA ["A"]
    = Some [mk_price_update "A" (mk_price_value 100 "RUR");
            mk_price_update "A" (mk_price_value 200 "RUR")])
    by (vm_compute; reflexivity).
  split; [exact Hp|]. exact (create_prices_entries _ _ _ Hp).
Defined.

(** ** Batch submission and the orchestration *)

(** [divide] with a positive size: the chunks rebuild the list and hold
    between one and [n] elements. *)
Lemma divide_chunks {A : Type} (lst : list A) (n : nat) :
  (0 < n)%nat ->
  exists chunks, divide lst n = Some chunks /\ concat chunks = lst /\
    (forall c, In c chunks -> (0 < length c <= n)%nat).
Proof.
  intros Hn. unfold divide. destruct (n =? 0)%nat eqn:E; [apply Nat.eqb_eq in E; lia|].
  eexists. split; [reflexivity|]. split.
  - rewrite (py_range_concat A lst n Hn); [reflexivity|lia].
  - intros c Hc. apply in_map_iff in Hc. destruct Hc as [j [<- Hj]].
    apply (slice_length A lst n Hn). exact (py_range_lt A lst n _ _ _ Hj).
Qed.

Lemma filter_not_empty_spec (l k : list stock) :
  filter_not_empty l = Some k -> k = filter (fun s => negb (first_count s =? 0)) l.
Proof.
  revert k. induction l as [|s l IH]; simpl; intros k H.
  - injection H as <-. reflexivity.
  - unfold count_nonzero, first_count in *.
    destruct (items s) as [|it its]; [discriminate|].
    destruct (filter_not_empty l) as [k'|]; [|discriminate].
    injection H as <-. rewrite (IH k' eq_refl).
    destruct (negb (count it =? 0)); reflexivity.
Qed.

(** When the body of [upload_stocks] returns [(not_empty, stocks)]:
    [stocks] is the result of [create_stocks] on the fetched offer ids, it
    was submitted as one fetch followed by PUTs of chunks of 1 to 2000
    updates that rebuild it in order, and [not_empty] is the list of its
    updates with a non-zero count; for a duplicate-free offer id list each
    of those has a record in the inventory. *)
Theorem upload_stocks_result (I : list watch) (offers : catalogue) (c w d : string)
    (evs : list event) (not_empty stocks : list stock) :
  upload_stocks I offers c w d = (evs, Some (not_empty, stocks)) ->
  (exists R', create_stocks I (offers c) w d = Some (stocks, R')) /\
  (exists chunks, evs = GetOffers c :: map (PutStocks c) chunks /\
     concat chunks = stocks /\ (forall ch, In ch chunks -> (0 < length ch <= 2000)%nat)) /\
  not_empty = filter (fun s => negb (first_count s =? 0)) stocks /\
  (NoDup (offers c) -> forall s, In s not_empty -> has_record I (sku s) = true).
Proof.
  unfold upload_stocks. intros H.
  destruct (create_stocks I (offers c) w d) as [[st R']|] eqn:Hc; [|discriminate].
  destruct (divide_chunks st 2000 ltac:(lia)) as [chunks [Hd [Hcat Hlen]]].
  rewrite Hd in H.
  destruct (filter_not_empty st) as [ne|] eqn:Hf; [|discriminate].
  injection H as <- <- <-.
  pose proof (filter_not_empty_spec _ _ Hf) as Hne.
  split; [eauto|]. split; [eauto|]. split; [exact Hne|].
  intros Hnd s Hs. rewrite Hne in Hs. apply filter_In in Hs. destruct Hs as [Hs Hz].
  pose proof (create_stocks_counts _ _ _ _ _ _ Hnd Hc s Hs) as E.
  destruct (has_record I (sku s)) eqn:Hr; [reflexivity|].
  apply has_record_false_iff in Hr. unfold expected_count in E. rewrite Hr in E.
  injection E as E. rewrite E in Hz. discriminate.
Qed.

Lemma upload_stocks_result_witness :
  upload_stocks inventory_A1 catalogue_A1 "fbs" "w" "d" =
    ([GetOffers "fbs"; PutStocks "fbs" [stock_of "A1" "w" 100 "d"; stock_of "B2" "w" 0 "d"]],
     Some ([stock_of "A1" "w" 100 "d"],
           [stock_of "A1" "w" 100 "d"; stock_of "B2" "w" 0 "d"])) /\
  [stock_of "A1" "w" 100 "d"] =
    filter (fun s => negb (first_count s =? 0))
      [stock_of "A1" "w" 100 "d"; stock_of "B2" "w" 0 "d"].
Proof.
  assert (Hu : upload_stocks inventory_A1 catalogue_A1 "fbs" "w" "d" =
    ([GetOffers "fbs"; PutStocks "fbs" [stock_of "A1" "w" 100 "d"; stock_of "B2" "w" 0 "d"]],
     Some ([stock_of "A1" "w" 100 "d"],
           [stock_of "A1" "w" 100 "d"; stock_of "B2" "w" 0 "d"])))
    by (vm_compute; reflexivity).
  split; [exact Hu|]. exact (proj1 (proj2 (proj2 (upload_stocks_result _ _ _ _ _ _ _ _ Hu)))).
Defined.

(** When awaited and completed, [upload_prices] fetches the offer ids once
    and POSTs the result of [create_prices] in chunks of 1 to 500 updates
    that rebuild it in order. *)
Theorem upload_prices_awaited (I : list watch) (offers : catalogue) (c : string)
    (evs : list event) :
  py_await (upload_prices I offers c) = (evs, true) ->
  exists ps chunks, create_prices I (offers c) = Some ps /\
    evs = GetOffers c :: map (PostPrices c) chunks /\ concat chunks = ps /\
    (forall ch, In ch chunks -> (0 < length ch <= 500)%nat).
Proof.
  unfold py_await, upload_prices, co_body. intros H.
  destruct (create_prices I (offers c)) as [ps|]; [|discriminate].
  destruct (divide_chunks ps 500 ltac:(lia)) as [chunks [Hd [Hcat Hlen]]].
  rewrite Hd in H. injection H as <-. eauto 6.
Qed.

Lemma upload_prices_awaited_witness :
  py_await (upload_prices inventory_A1 catalogue_A1 "fbs") =
    ([GetOffers "fbs"; PostPrices "fbs" [mk_price_update "A1" (mk_price_value 1990 "RUR")]],
     true) /\
  exists ps chunks, create_prices inventory_A1 (catalogue_A1 "fbs") = Some ps /\
    [GetOffers "fbs"; PostPrices "fbs" [mk_price_update "A1" (mk_price_value 1990 "RUR")]]
      = GetOffers "fbs" :: map (PostPrices "fbs") chunks /\ concat chunks = ps /\
    (forall ch, In ch chunks -> (0 < length ch <= 500)%nat).
Proof.
  assert (Hu : py_await (upload_prices inventory_A1 catalogue_A1 "fbs") =
    ([GetOffers "fbs"; PostPrices "fbs" [mk_price_update "A1" (mk_price_value 1990 "RUR")]],
     true)) by (vm_compute; reflexivity).
  split; [exact Hu|]. exact (upload_prices_awaited _ _ _ _ Hu).
Defined.

(** When [create_stocks] raises for the FBS campaign, the exception leaves
    the whole [try] block of [main]: after the FBS fetch no request is
    issued, in particular none for the DBS campaign. *)
Theorem main_fbs_failure_skips_dbs (I : list watch) (offers : catalogue)
    (cf cd wf wd df dd : string) :
  create_stocks I (offers cf) wf df = None ->
  main I offers cf cd wf wd df dd = [GetOffers cf].
Proof.
  intros H. unfold main, then_run, sync_stocks. rewrite H. reflexivity.
Qed.

Lemma main_fbs_failure_skips_dbs_witness :
  create_stocks inventory_bad (catalogue_A1 "fbs") "wf" "df" = None /\
  main inventory_bad catalogue_A1 "fbs" "dbs" "wf" "wd" "df" "dd" = [GetOffers "fbs"].
Proof.
  assert (H : create_stocks inventory_bad (catalogue_A1 "fbs") "wf" "df" = None)
    by (vm_compute; reflexivity).
  split; [exact H|]. exact (main_fbs_failure_skips_dbs _ _ _ _ _ _ _ _ H).
Defined.
